(** * Telegram User Info Bot: a shallow embedding of [bot.py]

    The bot is a handful of callback handlers over the transport client
    (python-telegram-bot).  Each handler reads a few attributes of the
    [Update] it is given and issues calls on the transport: [reply_text],
    [edit_message_text], [delete_message] and [answer].  The embedding keeps
    that shape: the objects of the transport are records with optional
    fields, a handler is a computation in a small monad that threads the
    trace of calls and log lines and may raise a Python exception, and the
    transport is an oracle that accepts or rejects each call in turn. *)

From Stdlib Require Import ZArith String Ascii List Bool Lia DecimalString
  DecimalPos DecimalZ Permutation.
Import ListNotations.
Local Open Scope string_scope.

(** ** Strings *)

(** The line feed that Python writes [\n]. *)
Definition nl : string := String (ascii_of_nat 10) EmptyString.

(** Python's [str] on an [int], as the f-strings apply it to [user.id]. *)
Definition str (z : Z) : string := NilZero.string_of_int (Z.to_int z).

(** Truth value of an optional string: [None] and the empty string are
    false. *)
Definition truthy (s : option string) : bool :=
  match s with
  | Some (String _ _) => true
  | _ => false
  end.

(** [x if x else 'N/A'] *)
Definition or_NA (s : option string) : string :=
  match s with
  | Some (String a r) => String a r
  | _ => "N/A"
  end.

(** [needle in s] *)
Fixpoint contains (needle s : string) : bool :=
  prefix needle s ||
  match s with
  | EmptyString => false
  | String _ r => contains needle r
  end.

(** Number of positions of [s] at which [needle] starts. *)
Fixpoint occurrences (needle s : string) : nat :=
  match s with
  | EmptyString => 0
  | String _ r => (if prefix needle s then 1 else 0) + occurrences needle r
  end.

(** ** The transport's objects *)

Module User.
Record t := mk
  { id : Z;
    username : option string;
    is_bot : bool;
    language_code : option string }.
End User.

Module Chat.
Record t := mk
  { id : Z;
    title : option string;
    username : option string }.
End Chat.

(** The four forward attributes that [handle_message] probes.  The class
    declares all of them, each [None] when the message carries no such
    piece of forward metadata; [forward_date] is a timestamp. *)
Module Message.
Record t := mk
  { forward_from : option User.t;
    forward_from_chat : option Chat.t;
    forward_sender_name : option string;
    forward_date : option Z }.
End Message.

Module CallbackQuery.
Record t := mk
  { data : option string;
    from_user : User.t }.
End CallbackQuery.

(** An update carries at most one of [message] and [callback_query]: the
    transport sets [message] on message updates only, so it is [None] on the
    update of a button press. *)
Module Update.
Record t := mk
  { message : option Message.t;
    effective_user : option User.t;
    callback_query : option CallbackQuery.t }.
End Update.

Record InlineKeyboardButton := Button
  { text : string;
    callback_data : string }.

(** [InlineKeyboardMarkup(keyboard)]: rows of buttons. *)
Definition InlineKeyboardMarkup := list (list InlineKeyboardButton).

(** ** Calls, exceptions and the handler monad *)

Inductive call :=
| reply_text (body : string) (parse_mode : option string)
    (reply_markup : option InlineKeyboardMarkup)
| edit_message_text (body : string) (parse_mode : option string)
    (reply_markup : option InlineKeyboardMarkup)
| delete_message
| answer.

Inductive exn :=
| AttributeError (obj attr : string)
| TelegramError (msg : string).

(** [str(e)] as the log line interpolates it. *)
Definition str_exn (e : exn) : string :=
  match e with
  | AttributeError obj attr =>
      "'" ++ obj ++ "' object has no attribute '" ++ attr ++ "'"
  | TelegramError msg => msg
  end.

(** A call is recorded with the transport's answer: [None] when it went
    through, [Some m] when the transport raised [TelegramError m] and the
    call had no effect. *)
Inductive entry :=
| Call (c : call) (r : option string)
| LogError (line : string).

Definition Trace := list entry.

(** The transport decides the fate of the [n]-th call issued to it. *)
Definition Transport := nat -> option string.

Inductive outcome (A : Type) :=
| Returned (a : A)
| Raised (e : exn).
Arguments Returned {A} a.
Arguments Raised {A} e.

Definition M (A : Type) : Type := Transport -> Trace -> Trace * outcome A.

Definition ret {A} (a : A) : M A := fun _ tr => (tr, Returned a).

Definition raise {A} (e : exn) : M A := fun _ tr => (tr, Raised e).

Definition bind {A B} (m : M A) (k : A -> M B) : M B :=
  fun t tr =>
    match m t tr with
    | (tr', Returned a) => k a t tr'
    | (tr', Raised e) => (tr', Raised e)
    end.

Declare Scope handler_scope.
Delimit Scope handler_scope with handler.
Notation "x <- m ;; k" := (bind m (fun x => k))
  (at level 100, m at next level, right associativity) : handler_scope.
Notation "m ;; k" := (bind m (fun _ => k))
  (at level 100, right associativity) : handler_scope.
Local Open Scope handler_scope.

(** [try: body except Exception as e: handler(e)] *)
Definition try_except {A} (body : M A) (handler : exn -> M A) : M A :=
  fun t tr =>
    match body t tr with
    | (tr', Returned a) => (tr', Returned a)
    | (tr', Raised e) => handler e t tr'
    end.

(** Number of calls issued so far. *)
Fixpoint issued (tr : Trace) : nat :=
  match tr with
  | [] => 0
  | Call _ _ :: tr' => S (issued tr')
  | LogError _ :: tr' => issued tr'
  end.

(** [await c]: issue the call and wait for the transport. *)
Definition await (c : call) : M unit :=
  fun t tr =>
    let r := t (issued tr) in
    ((tr ++ [Call c r])%list,
     match r with
     | None => Returned tt
     | Some m => Raised (TelegramError m)
     end).

(** [logger.error(line)] *)
Definition logger_error (line : string) : M unit :=
  fun _ tr => ((tr ++ [LogError line])%list, Returned tt).

(** Looking up [attr] on [obj]: [None] has no attribute at all. *)
Definition getattr {A} (obj : option A) (attr : string) : M A :=
  match obj with
  | Some o => ret o
  | None => raise (AttributeError "NoneType" attr)
  end.

(** Looking up a method that the class [UserInfoBot] does not define. *)
Definition undefined_method {A} (name : string) : M A :=
  raise (AttributeError "UserInfoBot" name).

(** [hasattr(obj, name) and obj.name], for an attribute the class of [obj]
    declares and whose values, when not [None], are objects (always true). *)
Definition hasattr_and {A B} (obj : option A) (field : A -> option B)
  : option B :=
  match obj with
  | Some o => field o
  | None => None
  end.

Definition run {A} (m : M A) (t : Transport) : Trace * outcome A := m t [].

(** ** The handlers of [UserInfoBot] *)

Definition start_text : string :=
  "👋 Welcome to User Info Bot!" ++ nl ++ nl ++
  "I can show information about forwarded messages." ++ nl ++ nl ++
  "Try these options:".

Definition start (update : Update.t) : M unit :=
  let keyboard :=
    [ [Button "Show My ID" "myid"];
      [Button "Help" "help"] ] in
  _ <- getattr (Update.message update) "reply_text" ;;
  await (reply_text start_text None (Some keyboard)).

Definition myid_text (user : User.t) : string :=
  "🆔 <b>Your Telegram ID</b>" ++ nl ++
  "├ ID: <code>" ++ str (User.id user) ++ "</code>" ++ nl ++
  "├ Username: @" ++ or_NA (User.username user) ++ nl ++
  "└ Language: " ++ or_NA (User.language_code user).

Definition myid_command (update : Update.t) : M unit :=
  let user := Update.effective_user update in
  let keyboard := [ [Button "Refresh" "refresh_myid"] ] in
  _ <- getattr (Update.message update) "reply_text" ;;
  user <- getattr user "id" ;;
  await (reply_text (myid_text user) (Some "HTML") (Some keyboard)).

Definition help_text : string :=
  "ℹ️ <b>Bot Help</b>" ++ nl ++ nl ++
  "<b>Commands:</b>" ++ nl ++
  "/start - Welcome message" ++ nl ++
  "/myid - Show your Telegram ID" ++ nl ++
  "/help - This message" ++ nl ++ nl ++
  "<b>How to use:</b>" ++ nl ++
  "1. Forward any message to see sender info" ++ nl ++
  "2. Some info may be hidden due to privacy settings".

Definition help_command (update : Update.t) : M unit :=
  _ <- getattr (Update.message update) "reply_text" ;;
  await (reply_text help_text (Some "HTML") None).

Definition user_info_text (user : User.t) : string :=
  "👤 <b>User Information</b>" ++ nl ++
  "├ ID: <code>" ++ str (User.id user) ++ "</code>" ++ nl ++
  "├ Username: @" ++ or_NA (User.username user) ++ nl ++
  "├ Bot: " ++ (if User.is_bot user then "✅ Yes" else "❌ No") ++ nl ++
  "└ Language: " ++ or_NA (User.language_code user).

Definition show_user_info (msg : option Message.t) (user : User.t) : M unit :=
  let keyboard :=
    [ [Button "Refresh" ("refresh_user_" ++ str (User.id user))];
      [Button "Close" "close"] ] in
  _ <- getattr msg "reply_text" ;;
  await (reply_text (user_info_text user) (Some "HTML") (Some keyboard)).

Definition prompt_text : string :=
  "ℹ️ Forward me a message to see info about the sender".

Definition error_text : string :=
  "⚠️ An error occurred while processing your message".

Definition handle_message (update : Update.t) : M unit :=
  let msg := Update.message update in
  try_except
    (match hasattr_and msg Message.forward_from with
     | Some user => show_user_info msg user
     | None =>
     match hasattr_and msg Message.forward_from_chat with
     | Some _ => undefined_method "show_chat_info"
     | None =>
     if truthy (hasattr_and msg Message.forward_sender_name)
     then undefined_method "show_private_forward"
     else
       m <- getattr msg "forward_date" ;;
       match Message.forward_date m with
       | None =>
           let keyboard := [ [Button "What can I do?" "help"] ] in
           await (reply_text prompt_text None (Some keyboard))
       | Some _ => ret tt
       end
     end
     end)
    (fun e =>
       logger_error ("Error handling message: " ++ str_exn e) ;;
       _ <- getattr msg "reply_text" ;;
       await (reply_text error_text None None)).

(** The two halves of [handle_message], each on its own: the body of the
    [try] block, and the [except] clause run on the exception caught. *)
Definition handle_message_try (msg : option Message.t) : M unit :=
  match hasattr_and msg Message.forward_from with
  | Some user => show_user_info msg user
  | None =>
  match hasattr_and msg Message.forward_from_chat with
  | Some _ => undefined_method "show_chat_info"
  | None =>
  if truthy (hasattr_and msg Message.forward_sender_name)
  then undefined_method "show_private_forward"
  else
    m <- getattr msg "forward_date" ;;
    match Message.forward_date m with
    | None =>
        let keyboard := [ [Button "What can I do?" "help"] ] in
        await (reply_text prompt_text None (Some keyboard))
    | Some _ => ret tt
    end
  end
  end.

Definition handle_message_except (msg : option Message.t) (e : exn) : M unit :=
  logger_error ("Error handling message: " ++ str_exn e) ;;
  _ <- getattr msg "reply_text" ;;
  await (reply_text error_text None None).

Definition button_myid_text (user : User.t) : string :=
  "🆔 <b>Your ID</b>: <code>" ++ str (User.id user) ++ "</code>" ++ nl ++
  "👤 <b>Username</b>: @" ++ or_NA (User.username user).

(** [query.data == lit] *)
Definition data_is (d : option string) (lit : string) : bool :=
  match d with
  | Some s => String.eqb s lit
  | None => false
  end.

Definition handle_button_press (update : Update.t) : M unit :=
  let query := Update.callback_query update in
  query <- getattr query "answer" ;;
  await answer ;;
  if data_is (CallbackQuery.data query) "myid" then
    let user := CallbackQuery.from_user query in
    await (edit_message_text (button_myid_text user) (Some "HTML") None)
  else if data_is (CallbackQuery.data query) "help" then
    help_command update
  else if data_is (CallbackQuery.data query) "close" then
    await delete_message
  else ret tt.

(** The registrations of [__init__]: three command handlers, the message
    handler for everything that is not a command, the callback-query
    handler.  A command no handler is registered for goes nowhere. *)
Inductive InboundEvent :=
| Command (name : string) (update : Update.t)
| PlainMessage (update : Update.t)
| ButtonPress (update : Update.t).

Definition dispatch (ev : InboundEvent) : M unit :=
  match ev with
  | Command name update =>
      if String.eqb name "start" then start update
      else if String.eqb name "myid" then myid_command update
      else if String.eqb name "help" then help_command update
      else ret tt
  | PlainMessage update => handle_message update
  | ButtonPress update => handle_button_press update
  end.

(** ** Reading a trace *)

(** The outbound actions of a trace: the sends, edits and deletions that
    went through.  The acknowledgement of a callback is not one of them. *)
Definition is_outbound_action (e : entry) : bool :=
  match e with
  | Call answer _ => false
  | Call _ None => true
  | _ => false
  end.

Definition outbound_actions (tr : Trace) : Trace := filter is_outbound_action tr.

Definition is_answer (e : entry) : bool :=
  match e with
  | Call answer _ => true
  | _ => false
  end.

(** The acknowledgements issued, whatever the transport made of them. *)
Definition acknowledgements (tr : Trace) : Trace := filter is_answer tr.

Definition is_log (e : entry) : bool :=
  match e with
  | LogError _ => true
  | _ => false
  end.

Definition logged (tr : Trace) : Trace := filter is_log tr.

(** What the chat shows of the message a button sits on: its text and its
    buttons.  An edit that went through replaces both by what the call
    supplies, so an edit without [reply_markup] leaves no buttons; a
    deletion that went through removes the message. *)
Record Shown := mkShown
  { shown_text : string;
    shown_markup : option InlineKeyboardMarkup }.

Definition effect_on_target (target : option Shown) (e : entry) : option Shown :=
  match e, target with
  | Call (edit_message_text body _ markup) None, Some _ =>
      Some (mkShown body markup)
  | Call delete_message None, _ => None
  | _, _ => target
  end.

Definition target_after (tr : Trace) (target : option Shown) : option Shown :=
  fold_left effect_on_target tr target.

(** A transport that lets every call through. *)
Definition accept_all : Transport := fun _ => None.

(** A transport that rejects exactly the [n]-th call. *)
Definition reject_nth (n : nat) (m : string) : Transport :=
  fun k => if Nat.eqb k n then Some m else None.

(** ** Sample updates *)

Definition alice : User.t := User.mk 100 (Some "alice") false (Some "en").

Definition plain_message : Message.t := Message.mk None None None None.

Definition alice_update : Update.t :=
  Update.mk (Some plain_message) (Some alice) None.

Definition user42 : User.t := User.mk 42 None false None.

Definition forward_of_user42 : Update.t :=
  Update.mk (Some (Message.mk (Some user42) None None (Some 1700000000%Z)))
    None None.

Definition forward_without_origin : Update.t :=
  Update.mk (Some (Message.mk None None None (Some 1700000000%Z))) None None.

Definition forward_of_chat : Update.t :=
  Update.mk
    (Some (Message.mk None (Some (Chat.mk (-1001234567890) (Some "News") None))
             None (Some 1700000000%Z)))
    None None.

Definition forward_of_hidden_sender : Update.t :=
  Update.mk
    (Some (Message.mk None None (Some "Bob") (Some 1700000000%Z)))
    None None.

Definition press (payload : string) : Update.t :=
  Update.mk None (Some alice) (Some (CallbackQuery.mk (Some payload) alice)).

Definition welcome_shown : Shown :=
  mkShown start_text
    (Some [ [Button "Show My ID" "myid"]; [Button "Help" "help"] ]).

Definition forward_of_user_and_chat : Update.t :=
  Update.mk
    (Some (Message.mk (Some user42) (Some (Chat.mk (-7) None None))
             (Some "Bob") None))
    None None.

(** The buttons that appear in the keyboards of the handlers. *)
Definition sent_button (b : InlineKeyboardButton) : Prop :=
  b = Button "Show My ID" "myid"
  \/ b = Button "Help" "help"
  \/ b = Button "What can I do?" "help"
  \/ b = Button "Close" "close"
  \/ b = Button "Refresh" "refresh_myid"
  \/ exists id : Z, b = Button "Refresh" ("refresh_user_" ++ str id).

(** ** Construction and startup *)

(** The handlers that [__init__] adds to the application, in the order of
    the calls to [add_handler]. *)
Inductive Handler :=
| CommandHandler (command : string) (callback : Update.t -> M unit)
| MessageHandler (callback : Update.t -> M unit)
| CallbackQueryHandler (callback : Update.t -> M unit).

Module UserInfoBot.
Record t := mk
  { token : string;
    handlers : list Handler }.
End UserInfoBot.

(** [UserInfoBot.__init__] *)
Definition init (token : string) : UserInfoBot.t :=
  UserInfoBot.mk token
    [ CommandHandler "start" start;
      CommandHandler "myid" myid_command;
      CommandHandler "help" help_command;
      MessageHandler handle_message;
      CallbackQueryHandler handle_button_press ].



Inductive log_record :=
| ERROR (line : string)
| INFO (line : string).

(** How the script ends up: [exit(code)], or polling with the bot built. *)
Inductive process :=
| exit (code : Z)
| run_polling (bot : UserInfoBot.t).

(** The [__main__] block with [UserInfoBot.run]; [getenv] is
    [os.getenv]. *)
Definition main (getenv : string -> option string)
  : list log_record * process :=
  let TOKEN := getenv "TELEGRAM_BOT_TOKEN" in
  match TOKEN with
  | Some (String a r) =>
      ([INFO "Starting bot..."], run_polling (init (String a r)))
  | _ =>
      ([ERROR "Missing TELEGRAM_BOT_TOKEN in environment variables"], exit 1)
  end.

(** Python's [int] on the decimal text of an integer. *)
Definition int_of_str (s : string) : option Z :=
  option_map Z.of_int (NilZero.int_of_string s).

(** * Properties *)

(** ** Substrings *)

Section Substrings.

Variable needle : string.

Lemma prefix_app (rest : string) : prefix needle (needle ++ rest) = true.
Proof.
  induction needle as [|a n IH]; simpl.
  - now destruct rest.
  - destruct (ascii_dec a a); [exact IH | congruence].
Qed.

Lemma prefix_refl : prefix needle needle = true.
Proof.
  induction needle as [|a n IH]; simpl; [reflexivity|].
  destruct (ascii_dec a a); [exact IH | congruence].
Qed.

Lemma contains_prefix (s : string) :
  prefix needle s = true -> contains needle s = true.
Proof. intros H; destruct s; cbn [contains]; rewrite H; reflexivity. Qed.

Lemma contains_here (rest : string) : contains needle (needle ++ rest) = true.
Proof. apply contains_prefix, prefix_app. Qed.

Lemma contains_refl : contains needle needle = true.
Proof. apply contains_prefix, prefix_refl. Qed.

Lemma contains_app_r (before s : string) :
  contains needle s = true -> contains needle (before ++ s) = true.
Proof.
  intros H; induction before as [|a b IH]; simpl; [exact H|].
  rewrite IH. apply orb_true_r.
Qed.

Lemma contains_middle (before rest : string) :
  contains needle (before ++ needle ++ rest) = true.
Proof. apply contains_app_r, contains_here. Qed.

End Substrings.

(** ** Running a handler *)

Local Arguments start_text : simpl never.
Local Arguments help_text : simpl never.
Local Arguments prompt_text : simpl never.
Local Arguments error_text : simpl never.
Local Arguments myid_text : simpl never.
Local Arguments user_info_text : simpl never.
Local Arguments button_myid_text : simpl never.
Local Arguments str : simpl never.
Local Arguments str_exn : simpl never.
Local Arguments String.append : simpl never.

Ltac exec :=
  unfold run, dispatch, start, myid_command, help_command, handle_message,
    show_user_info, handle_button_press, try_except, bind, ret, raise,
    await, logger_error, getattr, undefined_method, hasattr_and;
  cbn.

(** Split on what the transport answers to each call in sight. *)
Ltac oracle t :=
  repeat match goal with
         | |- context [t ?n] =>
             let r := fresh "r" in
             let E := fresh "E" in
             destruct (t n) as [r|] eqn:E; cbn
         end.





(** ** Commands *)



(** ** Forwarded messages *)

(** C5: a message forwarded from the user with id 42, no handle, not a
    bot, no language gets one reply whose text contains "42", has "N/A"
    exactly twice and the "no" glyph, with exactly the buttons "Refresh",
    keyed to [refresh_user_42], and "Close". *)
Theorem forward_of_user_42_reply
  (update : Update.t) (msg : Message.t) (user : User.t) (t : Transport) :
  Update.message update = Some msg ->
  Message.forward_from msg = Some user ->
  User.id user = 42%Z ->
  User.username user = None ->
  User.is_bot user = false ->
  User.language_code user = None ->
  t 0 = None ->
  run (dispatch (PlainMessage update)) t =
    ([Call (reply_text (user_info_text user) (Some "HTML")
              (Some [ [Button "Refresh" "refresh_user_42"];
                      [Button "Close" "close"] ]))
        None],
     Returned tt)
  /\ contains "42" (user_info_text user) = true
  /\ occurrences "N/A" (user_info_text user) = 2
  /\ contains "❌ No" (user_info_text user) = true.
Proof.
  intros Hm Hf Hid Hn Hb Hl Ht.
  assert (Hu : user = user42).
  { destruct user; cbn in *; subst; reflexivity. }
  subst user. split; [|repeat split; reflexivity].
  exec. rewrite Hm. cbn. rewrite Hf. cbn. rewrite Ht. reflexivity.
Qed.

Lemma forward_of_user_42_reply_witness :
  run (dispatch (PlainMessage forward_of_user42)) accept_all =
    ([Call (reply_text (user_info_text user42) (Some "HTML")
              (Some [ [Button "Refresh" "refresh_user_42"];
                      [Button "Close" "close"] ]))
        None],
     Returned tt)
  /\ contains "42" (user_info_text user42) = true
  /\ occurrences "N/A" (user_info_text user42) = 2
  /\ contains "❌ No" (user_info_text user42) = true.
Proof.
  exact (forward_of_user_42_reply forward_of_user42 _ user42 accept_all
           eq_refl eq_refl eq_refl eq_refl eq_refl eq_refl eq_refl).
Defined.

(** C7: a message that carries a forward date but no forwarding user, no
    forwarding chat and no (or an empty) sender name produces no outbound
    action at all: nothing is sent, nothing is logged, the handler
    returns. *)
Theorem forward_without_origin_no_action
  (update : Update.t) (msg : Message.t) (date : Z) (t : Transport) :
  Update.message update = Some msg ->
  Message.forward_from msg = None ->
  Message.forward_from_chat msg = None ->
  truthy (Message.forward_sender_name msg) = false ->
  Message.forward_date msg = Some date ->
  run (dispatch (PlainMessage update)) t = ([], Returned tt).
Proof.
  intros Hm Hu Hc Hs Hd. exec.
  rewrite Hm. cbn. rewrite Hu, Hc, Hs. cbn. rewrite Hd. reflexivity.
Qed.

Lemma forward_without_origin_no_action_witness :
  run (dispatch (PlainMessage forward_without_origin)) accept_all =
    ([], Returned tt).
Proof.
  exact (forward_without_origin_no_action forward_without_origin _
           1700000000%Z accept_all eq_refl eq_refl eq_refl eq_refl eq_refl).
Defined.

(** C1: for a message forwarded from a chat the handler looks up
    [show_chat_info], which the class does not define; the
    [AttributeError] is caught, logged, and the user gets the generic error
    reply instead of a chat-info block. *)
Theorem forward_of_chat_gets_error_reply :
  run (dispatch (PlainMessage forward_of_chat)) accept_all =
    ([LogError
        "Error handling message: 'UserInfoBot' object has no attribute 'show_chat_info'";
      Call (reply_text error_text None None) None],
     Returned tt).
Proof. reflexivity. Qed.

(** The same on every message forwarded from a chat and not from a user. *)
Lemma any_forward_of_chat_gets_error_reply
  (update : Update.t) (msg : Message.t) (chat : Chat.t) (t : Transport) :
  Update.message update = Some msg ->
  Message.forward_from msg = None ->
  Message.forward_from_chat msg = Some chat ->
  t 0 = None ->
  run (handle_message update) t =
    ([LogError
        ("Error handling message: " ++
         str_exn (AttributeError "UserInfoBot" "show_chat_info"));
      Call (reply_text error_text None None) None],
     Returned tt).
Proof.
  intros Hm Hu Hc Ht. exec. rewrite Hm. cbn. rewrite Hu, Hc. cbn.
  rewrite Ht. reflexivity.
Qed.

(** C2: for a forward whose sender hides the account the handler looks up
    [show_private_forward], which the class does not define either; the
    user gets the generic error reply, and the forwarder's name is shown
    nowhere. *)
Theorem forward_of_hidden_sender_gets_error_reply :
  run (dispatch (PlainMessage forward_of_hidden_sender)) accept_all =
    ([LogError
        "Error handling message: 'UserInfoBot' object has no attribute 'show_private_forward'";
      Call (reply_text error_text None None) None],
     Returned tt)
  /\ contains "Bob" error_text = false.
Proof. split; reflexivity. Qed.

Lemma any_forward_of_hidden_sender_gets_error_reply
  (update : Update.t) (msg : Message.t) (t : Transport) :
  Update.message update = Some msg ->
  Message.forward_from msg = None ->
  Message.forward_from_chat msg = None ->
  truthy (Message.forward_sender_name msg) = true ->
  t 0 = None ->
  run (handle_message update) t =
    ([LogError
        ("Error handling message: " ++
         str_exn (AttributeError "UserInfoBot" "show_private_forward"));
      Call (reply_text error_text None None) None],
     Returned tt).
Proof.
  intros Hm Hu Hc Hs Ht. exec. rewrite Hm. cbn. rewrite Hu, Hc, Hs. cbn.
  rewrite Ht. reflexivity.
Qed.

(** ** Button presses *)

(** C4: on the update of a button press [update.message] is [None], so
    the help branch, which replies through [update.message], raises after
    the acknowledgement and sends no help block. *)
Theorem help_button_raises :
  run (dispatch (ButtonPress (press "help"))) accept_all =
    ([Call answer None], Raised (AttributeError "NoneType" "reply_text"))
  /\ run (dispatch (Command "help" alice_update)) accept_all =
    ([Call (reply_text help_text (Some "HTML") None) None], Returned tt).
Proof. split; reflexivity. Qed.

(** C9: whatever the payload and whatever becomes of the branch it selects,
    a button press issues exactly one acknowledgement, as the first call of
    the handler. *)
Theorem button_press_acknowledged_once
  (update : Update.t) (query : CallbackQuery.t) (t : Transport) :
  Update.callback_query update = Some query ->
  acknowledgements (fst (run (dispatch (ButtonPress update)) t)) =
    [Call answer (t 0)]
  /\ hd_error (fst (run (dispatch (ButtonPress update)) t)) =
    Some (Call answer (t 0)).
Proof.
  intros Hq. exec. rewrite Hq. cbn.
  destruct (t 0) as [m|] eqn:E0; cbn; [split; reflexivity|].
  destruct (data_is (CallbackQuery.data query) "myid"); cbn.
  { destruct (t 1); split; reflexivity. }
  destruct (data_is (CallbackQuery.data query) "help").
  { exec. destruct (Update.message update); cbn;
      [destruct (t 1)|]; split; reflexivity. }
  destruct (data_is (CallbackQuery.data query) "close"); cbn.
  { destruct (t 1); split; reflexivity. }
  split; reflexivity.
Qed.

Lemma button_press_acknowledged_once_witness :
  acknowledgements
    (fst (run (dispatch (ButtonPress (press "refresh_myid"))) accept_all)) =
    [Call answer None]
  /\ hd_error
    (fst (run (dispatch (ButtonPress (press "refresh_myid"))) accept_all)) =
    Some (Call answer None).
Proof.
  exact (button_press_acknowledged_once (press "refresh_myid") _ accept_all
           eq_refl).
Defined.

(** C10: a press of the "myid" button, once acknowledged, issues one edit
    of the target message that supplies the new text and no button layout;
    when the edit goes through, the message shows that text and no buttons,
    whatever it showed before. *)
Theorem myid_button_edit_drops_buttons
  (update : Update.t) (query : CallbackQuery.t) (t : Transport)
  (before : Shown) :
  Update.callback_query update = Some query ->
  CallbackQuery.data query = Some "myid" ->
  t 0 = None ->
  fst (run (dispatch (ButtonPress update)) t) =
    [Call answer None;
     Call (edit_message_text
             (button_myid_text (CallbackQuery.from_user query))
             (Some "HTML") None)
       (t 1)]
  /\ (t 1 = None ->
      run (dispatch (ButtonPress update)) t =
        ([Call answer None;
          Call (edit_message_text
                  (button_myid_text (CallbackQuery.from_user query))
                  (Some "HTML") None)
            None],
         Returned tt)
      /\ target_after (fst (run (dispatch (ButtonPress update)) t))
           (Some before) =
         Some (mkShown (button_myid_text (CallbackQuery.from_user query)) None)).
Proof.
  intros Hq Hd H0. exec. rewrite Hq. cbn. rewrite H0, Hd. cbn.
  split; [reflexivity|]. intros H1. rewrite H1. cbn. split; reflexivity.
Qed.

Lemma myid_button_edit_drops_buttons_witness :
  target_after (fst (run (dispatch (ButtonPress (press "myid"))) accept_all))
    (Some welcome_shown) =
  Some (mkShown (button_myid_text alice) None).
Proof.
  exact (proj2 (proj2 (myid_button_edit_drops_buttons (press "myid") _
                         accept_all welcome_shown eq_refl eq_refl eq_refl)
                  eq_refl)).
Defined.

(** ** Every event *)

(** Run the handlers and split on every test they make and on every
    answer of the transport. *)
Ltac split_cases :=
  repeat (exec;
          match goal with
          | |- context [match ?x with _ => _ end] =>
              lazymatch x with
              | context [match _ with _ => _ end] => fail
              | _ => destruct x eqn:?
              end
          end);
  exec.

(** C6: whatever the event and whatever the transport answers, at most
    one outbound action goes through: the sends, edits and deletions
    delivered while handling one event number at most one, on the error
    path too, where the error reply is sent only after the intended reply
    was rejected. *)
Theorem at_most_one_outbound_action (ev : InboundEvent) (t : Transport) :
  length (outbound_actions (fst (run (dispatch ev) t))) <= 1.
Proof. destruct ev; split_cases; lia. Qed.

(** C3, as stated, fails twice.  When the transport rejects both the
    reply and the error reply, the second rejection leaves
    [handle_message] as an exception and no error reply is delivered; and
    the button handler has no boundary at all: a rejected edit leaves it
    as an exception, with nothing logged and no error reply attempted. *)
Lemma failures_that_propagate :
  run (dispatch (PlainMessage alice_update))
    (fun _ => Some "Timed out") =
    ([Call (reply_text prompt_text None
              (Some [ [Button "What can I do?" "help"] ]))
        (Some "Timed out");
      LogError "Error handling message: Timed out";
      Call (reply_text error_text None None) (Some "Timed out")],
     Raised (TelegramError "Timed out"))
  /\ run (dispatch (ButtonPress (press "myid"))) (reject_nth 1 "Timed out") =
    ([Call answer None;
      Call (edit_message_text (button_myid_text alice) (Some "HTML") None)
        (Some "Timed out")],
     Raised (TelegramError "Timed out")).
Proof. split; reflexivity. Qed.

(** [handle_message] is its [try] block guarded by its [except] clause. *)
Lemma handle_message_is_try_except (update : Update.t) :
  handle_message update =
  try_except (handle_message_try (Update.message update))
    (handle_message_except (Update.message update)).
Proof. reflexivity. Qed.

Lemma issued_app (tr tr' : Trace) :
  issued (tr ++ tr')%list = issued tr + issued tr'.
Proof.
  induction tr as [|[c r|line] tr IH]; cbn; [reflexivity | | exact IH].
  now rewrite IH.
Qed.

(** When the [try] block returns, so does the handler, with the same
    trace. *)
Lemma handle_message_passes_success
  (update : Update.t) (t : Transport) (tr : Trace) :
  run (handle_message_try (Update.message update)) t = (tr, Returned tt) ->
  run (handle_message update) t = (tr, Returned tt).
Proof.
  unfold run. intros H. rewrite handle_message_is_try_except.
  unfold try_except. now rewrite H.
Qed.

(** C3, amended: on an update that carries a message, whenever the [try]
    block of [handle_message] raises an exception [e], having left the
    trace [before], the handler catches it: it logs [e] once, then attempts
    the generic plain-text error reply exactly once, and returns normally
    when the transport lets that reply through (the rejection of the error
    reply is what leaves the handler otherwise).  Nothing was delivered and
    nothing logged before the exception, and [e] is the lookup of one of
    the two undefined methods or a rejection by the transport. *)
Theorem handle_message_catches_failures
  (update : Update.t) (msg : Message.t) (t : Transport)
  (before : Trace) (e : exn) :
  Update.message update = Some msg ->
  run (handle_message_try (Update.message update)) t = (before, Raised e) ->
  run (dispatch (PlainMessage update)) t =
    ((before ++
      [LogError ("Error handling message: " ++ str_exn e);
       Call (reply_text error_text None None) (t (issued before))])%list,
     match t (issued before) with
     | None => Returned tt
     | Some m => Raised (TelegramError m)
     end)
  /\ outbound_actions before = []
  /\ logged before = []
  /\ (e = AttributeError "UserInfoBot" "show_chat_info"
      \/ e = AttributeError "UserInfoBot" "show_private_forward"
      \/ exists m, e = TelegramError m).
Proof.
  intros Hm Hbody. split.
  - unfold run, dispatch in *. rewrite handle_message_is_try_except.
    unfold try_except. rewrite Hbody, Hm.
    unfold handle_message_except, bind, logger_error, getattr, ret, await.
    rewrite issued_app, Nat.add_0_r, <- app_assoc. reflexivity.
  - rewrite Hm in Hbody. revert Hbody.
    unfold run, handle_message_try, show_user_info, bind, ret, raise, await,
      getattr, undefined_method, hasattr_and. cbn.
    destruct (Message.forward_from msg) as [user|]; cbn.
    { destruct (t 0) as [m|]; cbn; intros H; inversion H; subst; cbn; repeat split; eauto. }
    destruct (Message.forward_from_chat msg) as [chat|]; cbn.
    { intros H; inversion H; subst; cbn; repeat split; eauto. }
    destruct (truthy (Message.forward_sender_name msg)); cbn.
    { intros H; inversion H; subst; cbn; repeat split; eauto. }
    destruct (Message.forward_date msg); cbn; [discriminate|].
    destruct (t 0) as [m|]; cbn; intros H; inversion H; subst; cbn; repeat split; eauto.
Qed.

Lemma handle_message_catches_failures_witness :
  run (dispatch (PlainMessage forward_of_chat)) accept_all =
    (([] ++
      [LogError
         ("Error handling message: " ++
          str_exn (AttributeError "UserInfoBot" "show_chat_info"));
       Call (reply_text error_text None None) (accept_all (issued []))])%list,
     match accept_all (issued []) with
     | None => Returned tt
     | Some m => Raised (TelegramError m)
     end)
  /\ outbound_actions [] = []
  /\ logged [] = []
  /\ (AttributeError "UserInfoBot" "show_chat_info" =
      AttributeError "UserInfoBot" "show_chat_info"
      \/ AttributeError "UserInfoBot" "show_chat_info" =
         AttributeError "UserInfoBot" "show_private_forward"
      \/ exists m,
          AttributeError "UserInfoBot" "show_chat_info" = TelegramError m).
Proof.
  exact (handle_message_catches_failures forward_of_chat _ accept_all []
           (AttributeError "UserInfoBot" "show_chat_info") eq_refl eq_refl).
Defined.

(** * Further properties of the handlers *)

Lemma append_assoc (a b c : string) : (a ++ b) ++ c = a ++ b ++ c.
Proof.
  induction a as [|x a IH]; [reflexivity|].
  change (String x ((a ++ b) ++ c) = String x (a ++ b ++ c)).
  now rewrite IH.
Qed.

(** ** Plain and forwarded messages *)

(** X1: a message with no forward metadata at all gets the invitation to
    forward something, sent as plain text with the single button
    "What can I do?" that carries the payload [help]. *)
Theorem plain_message_gets_prompt
  (update : Update.t) (msg : Message.t) (t : Transport) :
  Update.message update = Some msg ->
  Message.forward_from msg = None ->
  Message.forward_from_chat msg = None ->
  truthy (Message.forward_sender_name msg) = false ->
  Message.forward_date msg = None ->
  t 0 = None ->
  run (handle_message update) t =
    ([Call (reply_text prompt_text None
              (Some [ [Button "What can I do?" "help"] ]))
        None],
     Returned tt).
Proof.
  intros Hm Hu Hc Hs Hd Ht. exec.
  rewrite Hm. cbn. rewrite Hu, Hc, Hs. cbn. rewrite Hd. cbn. rewrite Ht.
  reflexivity.
Qed.

Lemma plain_message_gets_prompt_witness :
  run (handle_message alice_update) accept_all =
    ([Call (reply_text prompt_text None
              (Some [ [Button "What can I do?" "help"] ]))
        None],
     Returned tt).
Proof.
  exact (plain_message_gets_prompt alice_update plain_message accept_all
           eq_refl eq_refl eq_refl eq_refl eq_refl eq_refl).
Defined.

(** X2: the forwarding user is tested first and wins: whatever the chat,
    sender name and date of the message, the handler sends the user-info
    block; when the transport rejects it, the rejection is logged and the
    generic error reply is tried once, the handler returning normally
    exactly when that one goes through. *)
Theorem forward_from_user_wins
  (update : Update.t) (msg : Message.t) (user : User.t) (t : Transport) :
  Update.message update = Some msg ->
  Message.forward_from msg = Some user ->
  run (handle_message update) t =
    match t 0 with
    | None =>
        ([Call (reply_text (user_info_text user) (Some "HTML")
                  (Some [ [Button "Refresh"
                             ("refresh_user_" ++ str (User.id user))];
                          [Button "Close" "close"] ]))
            None],
         Returned tt)
    | Some m =>
        ([Call (reply_text (user_info_text user) (Some "HTML")
                  (Some [ [Button "Refresh"
                             ("refresh_user_" ++ str (User.id user))];
                          [Button "Close" "close"] ]))
            (Some m);
          LogError ("Error handling message: " ++ m);
          Call (reply_text error_text None None) (t 1)],
         match t 1 with
         | None => Returned tt
         | Some m' => Raised (TelegramError m')
         end)
    end.
Proof.
  intros Hm Hu. exec. rewrite Hm. cbn. rewrite Hu. cbn.
  destruct (t 0); cbn; reflexivity.
Qed.

Lemma forward_from_user_wins_witness :
  run (handle_message forward_of_user_and_chat) accept_all =
    ([Call (reply_text (user_info_text user42) (Some "HTML")
              (Some [ [Button "Refresh" "refresh_user_42"];
                      [Button "Close" "close"] ]))
        None],
     Returned tt).
Proof.
  exact (forward_from_user_wins forward_of_user_and_chat _ user42 accept_all
           eq_refl eq_refl).
Defined.

(** X3: the user-info block shows, for every user, the id between code
    tags, "@" followed by the handle or N/A, the glyph of the bot flag, and
    the language or N/A at its end. *)
Theorem user_info_text_shows (user : User.t) :
  contains ("<code>" ++ str (User.id user) ++ "</code>")
    (user_info_text user) = true
  /\ contains ("@" ++ or_NA (User.username user)) (user_info_text user) = true
  /\ contains (if User.is_bot user then "✅ Yes" else "❌ No")
       (user_info_text user) = true
  /\ contains ("Language: " ++ or_NA (User.language_code user))
       (user_info_text user) = true.
Proof.
  unfold user_info_text.
  set (z := str (User.id user)).
  set (h := or_NA (User.username user)).
  set (b := if User.is_bot user then "✅ Yes" else "❌ No").
  set (l := or_NA (User.language_code user)).
  repeat apply conj.
  - apply (contains_app_r _ "👤 <b>User Information</b>"),
      (contains_app_r _ nl).
    set (rest := nl ++ "├ Username: @" ++ h ++ nl ++ "├ Bot: " ++ b ++ nl ++
                 "└ Language: " ++ l).
    change (contains ("<code>" ++ z ++ "</code>")
              ("├ ID: " ++ "<code>" ++ z ++ "</code>" ++ rest) = true).
    apply contains_app_r.
    transitivity (contains ("<code>" ++ z ++ "</code>")
                    (("<code>" ++ z ++ "</code>") ++ rest));
      [now rewrite !append_assoc | apply contains_here].
  - apply (contains_app_r _ "👤 <b>User Information</b>"),
      (contains_app_r _ nl), (contains_app_r _ "├ ID: <code>"),
      (contains_app_r _ z), (contains_app_r _ "</code>"),
      (contains_app_r _ nl).
    change (contains ("@" ++ h)
              ("├ Username: " ++ ("@" ++ h) ++
               nl ++ "├ Bot: " ++ b ++ nl ++ "└ Language: " ++ l) = true).
    apply contains_middle.
  - apply (contains_app_r _ "👤 <b>User Information</b>"),
      (contains_app_r _ nl), (contains_app_r _ "├ ID: <code>"),
      (contains_app_r _ z), (contains_app_r _ "</code>"),
      (contains_app_r _ nl), (contains_app_r _ "├ Username: @"),
      (contains_app_r _ h), (contains_app_r _ nl), contains_middle.
  - apply (contains_app_r _ "👤 <b>User Information</b>"),
      (contains_app_r _ nl), (contains_app_r _ "├ ID: <code>"),
      (contains_app_r _ z), (contains_app_r _ "</code>"),
      (contains_app_r _ nl), (contains_app_r _ "├ Username: @"),
      (contains_app_r _ h), (contains_app_r _ nl),
      (contains_app_r _ "├ Bot: "), (contains_app_r _ b),
      (contains_app_r _ nl).
    change (contains ("Language: " ++ l) ("└ " ++ ("Language: " ++ l)) = true).
    apply contains_app_r, contains_refl.
Qed.

(** X4: a message update that carries no message (an edited message, a
    channel post) makes [handle_message] fail twice over: the lookup of
    [forward_date] on [None] is caught and logged, then the [except] clause
    itself looks up [reply_text] on [None] and that [AttributeError] leaves
    the handler; no call reaches the transport. *)
Theorem handle_message_without_message (update : Update.t) (t : Transport) :
  Update.message update = None ->
  run (handle_message update) t =
    ([LogError
        "Error handling message: 'NoneType' object has no attribute 'forward_date'"],
     Raised (AttributeError "NoneType" "reply_text")).
Proof. intros Hm. exec. rewrite Hm. reflexivity. Qed.

Lemma handle_message_without_message_witness :
  run (handle_message (press "myid")) accept_all =
    ([LogError
        "Error handling message: 'NoneType' object has no attribute 'forward_date'"],
     Raised (AttributeError "NoneType" "reply_text")).
Proof.
  exact (handle_message_without_message (press "myid") accept_all eq_refl).
Defined.

(** ** Commands on incomplete updates *)

(** X5: a command handler run on an update without message raises at the
    lookup of [reply_text], and [myid_command] run on an update with a
    message but no effective user raises at [user.id]; in both cases before
    any call is issued. *)
Theorem commands_on_incomplete_updates (update : Update.t) (t : Transport) :
  (Update.message update = None ->
   run (start update) t = ([], Raised (AttributeError "NoneType" "reply_text"))
   /\ run (myid_command update) t =
      ([], Raised (AttributeError "NoneType" "reply_text"))
   /\ run (help_command update) t =
      ([], Raised (AttributeError "NoneType" "reply_text")))
  /\ (Update.message update <> None ->
      Update.effective_user update = None ->
      run (myid_command update) t =
        ([], Raised (AttributeError "NoneType" "id"))).
Proof.
  split.
  - intros Hm. exec. rewrite Hm. repeat split; reflexivity.
  - intros Hm Hu. exec. rewrite Hu.
    destruct (Update.message update); [reflexivity | congruence].
Qed.

Lemma commands_on_incomplete_updates_witness :
  run (help_command (press "help")) accept_all =
    ([], Raised (AttributeError "NoneType" "reply_text")).
Proof.
  exact (proj2 (proj2 (proj1 (commands_on_incomplete_updates (press "help")
                                accept_all) eq_refl))).
Defined.

(** ** More on button presses *)

(** X6: a press of "close", once acknowledged, issues one deletion of the
    target message and nothing else; when the deletion goes through the
    handler returns and the message is gone. *)
Theorem close_button_deletes_message
  (update : Update.t) (query : CallbackQuery.t) (t : Transport)
  (target : option Shown) :
  Update.callback_query update = Some query ->
  CallbackQuery.data query = Some "close" ->
  t 0 = None ->
  run (handle_button_press update) t =
    ([Call answer None; Call delete_message (t 1)],
     match t 1 with
     | None => Returned tt
     | Some m => Raised (TelegramError m)
     end)
  /\ (t 1 = None ->
      target_after (fst (run (handle_button_press update) t)) target = None).
Proof.
  intros Hq Hd H0. exec. rewrite Hq. cbn. rewrite H0, Hd. cbn.
  split; [reflexivity|]. intros H1. rewrite H1. reflexivity.
Qed.

Lemma close_button_deletes_message_witness :
  target_after (fst (run (handle_button_press (press "close")) accept_all))
    (Some welcome_shown) = None.
Proof.
  exact (proj2 (close_button_deletes_message (press "close") _ accept_all
                  (Some welcome_shown) eq_refl eq_refl eq_refl) eq_refl).
Defined.

(** What a press does when its payload selects no branch. *)
Lemma acknowledged_only
  (update : Update.t) (query : CallbackQuery.t) (t : Transport) :
  Update.callback_query update = Some query ->
  CallbackQuery.data query <> Some "myid" ->
  CallbackQuery.data query <> Some "help" ->
  CallbackQuery.data query <> Some "close" ->
  run (handle_button_press update) t =
    ([Call answer (t 0)],
     match t 0 with
     | None => Returned tt
     | Some m => Raised (TelegramError m)
     end).
Proof.
  intros Hq H1 H2 H3.
  assert (Hno : forall lit, CallbackQuery.data query <> Some lit ->
                            data_is (CallbackQuery.data query) lit = false).
  { intros lit H. unfold data_is. destruct (CallbackQuery.data query) as [s|];
      [|reflexivity].
    apply String.eqb_neq. congruence. }
  exec. rewrite Hq. cbn.
  destruct (t 0); cbn; [reflexivity|].
  rewrite (Hno _ H1), (Hno _ H2), (Hno _ H3). reflexivity.
Qed.

(** X7: a press whose payload is none of [myid], [help], [close] (or that
    carries no payload) is acknowledged and nothing more: no call follows
    the acknowledgement and the handler returns as the acknowledgement
    did. *)
Theorem unmatched_payload_only_acknowledged
  (update : Update.t) (query : CallbackQuery.t) (t : Transport) :
  Update.callback_query update = Some query ->
  CallbackQuery.data query <> Some "myid" ->
  CallbackQuery.data query <> Some "help" ->
  CallbackQuery.data query <> Some "close" ->
  run (handle_button_press update) t =
    ([Call answer (t 0)],
     match t 0 with
     | None => Returned tt
     | Some m => Raised (TelegramError m)
     end).
Proof. apply acknowledged_only. Qed.

Lemma unmatched_payload_only_acknowledged_witness :
  run (handle_button_press (press "refresh_myid")) accept_all =
    ([Call answer None], Returned tt).
Proof.
  exact (unmatched_payload_only_acknowledged (press "refresh_myid") _
           accept_all eq_refl ltac:(discriminate) ltac:(discriminate)
           ltac:(discriminate)).
Defined.

(** X8: when the transport rejects the acknowledgement the press stops
    there: whatever the payload, the target message is neither edited nor
    deleted, nothing is sent, and the rejection leaves the handler. *)
Theorem rejected_acknowledgement_aborts_press
  (update : Update.t) (query : CallbackQuery.t) (t : Transport) (m : string) :
  Update.callback_query update = Some query ->
  t 0 = Some m ->
  run (handle_button_press update) t =
    ([Call answer (Some m)], Raised (TelegramError m)).
Proof. intros Hq H0. exec. rewrite Hq. cbn. rewrite H0. reflexivity. Qed.

Lemma rejected_acknowledgement_aborts_press_witness :
  run (handle_button_press (press "close")) (reject_nth 0 "Timed out") =
    ([Call answer (Some "Timed out")], Raised (TelegramError "Timed out")).
Proof.
  exact (rejected_acknowledgement_aborts_press (press "close") _
           (reject_nth 0 "Timed out") "Timed out" eq_refl eq_refl).
Defined.

(** ** The buttons the bot sends *)

Ltac in_cases :=
  repeat match goal with
         | H : False |- _ => destruct H
         | H : _ \/ _ |- _ => destruct H as [H|H]
         | H : In _ _ |- _ => progress cbn in H
         | H : @eq entry _ _ |- _ => inversion H; clear H; subst
         | H : @eq call _ _ |- _ => inversion H; clear H; subst
         | H : _ = ?x |- _ => is_var x; subst x
         end.

Lemma buttons_are_sent_buttons
  (ev : InboundEvent) (t : Transport) (c : call) (r : option string)
  (kb : InlineKeyboardMarkup) (row : list InlineKeyboardButton)
  (b : InlineKeyboardButton) :
  In (Call c r) (fst (run (dispatch ev) t)) ->
  (exists body pm, c = reply_text body pm (Some kb)
                   \/ c = edit_message_text body pm (Some kb)) ->
  In row kb -> In b row ->
  sent_button b.
Proof.
  intros Hin (body & pm & Hc) Hrow Hb. revert Hin.
  destruct ev; split_cases; intros Hin; in_cases;
    unfold sent_button; eauto 10.
Qed.

(** X9: whatever the event and the transport, every button of every
    keyboard the bot sends is one of six: "Show My ID" (myid), "Help"
    (help), "What can I do?" (help), "Close" (close), "Refresh"
    (refresh_myid) or "Refresh" (refresh_user_ followed by an id in
    decimal); an edit never carries a keyboard of its own. *)
Theorem every_sent_button_is_known
  (ev : InboundEvent) (t : Transport) (c : call) (r : option string)
  (kb : InlineKeyboardMarkup) (row : list InlineKeyboardButton)
  (b : InlineKeyboardButton) :
  In (Call c r) (fst (run (dispatch ev) t)) ->
  (exists body pm, c = reply_text body pm (Some kb)
                   \/ c = edit_message_text body pm (Some kb)) ->
  In row kb -> In b row ->
  sent_button b
  /\ exists body pm, c = reply_text body pm (Some kb).
Proof.
  intros Hin Hc Hrow Hb.
  split; [exact (buttons_are_sent_buttons ev t c r kb row b Hin Hc Hrow Hb)|].
  destruct Hc as (body & pm & Hc). revert Hin.
  destruct ev; split_cases; intros Hin; in_cases; eauto.
Qed.

Lemma every_sent_button_is_known_witness :
  sent_button (Button "Refresh" "refresh_user_42")
  /\ exists body pm,
      reply_text (user_info_text user42) (Some "HTML")
        (Some [ [Button "Refresh" "refresh_user_42"];
                [Button "Close" "close"] ]) =
      reply_text body pm
        (Some [ [Button "Refresh" "refresh_user_42"];
                [Button "Close" "close"] ]).
Proof.
  apply (every_sent_button_is_known (PlainMessage forward_of_user42)
           accept_all _ None _ [Button "Refresh" "refresh_user_42"]).
  - left. reflexivity.
  - eexists _, _. left. reflexivity.
  - left. reflexivity.
  - left. reflexivity.
Defined.

(** X10: no "Refresh" button the bot ever sends does anything: a press
    that echoes the payload of such a button is acknowledged and nothing
    more. *)
Theorem refresh_buttons_only_acknowledge
  (ev : InboundEvent) (t0 : Transport) (body : string) (pm : option string)
  (kb : InlineKeyboardMarkup) (r : option string)
  (row : list InlineKeyboardButton) (b : InlineKeyboardButton)
  (update : Update.t) (query : CallbackQuery.t) (t : Transport) :
  In (Call (reply_text body pm (Some kb)) r) (fst (run (dispatch ev) t0)) ->
  In row kb -> In b row ->
  text b = "Refresh" ->
  Update.callback_query update = Some query ->
  CallbackQuery.data query = Some (callback_data b) ->
  run (handle_button_press update) t =
    ([Call answer (t 0)],
     match t 0 with
     | None => Returned tt
     | Some m => Raised (TelegramError m)
     end).
Proof.
  intros Hin Hrow Hb Htext Hq Hd.
  assert (Hs : sent_button b).
  { apply (buttons_are_sent_buttons ev t0 _ r kb row b Hin); eauto. }
  apply (acknowledged_only update query t Hq); rewrite Hd;
    destruct Hs as [->|[->|[->|[->|[->|(id & ->)]]]]];
    cbn in Htext |- *; try discriminate Htext;
    intros H; inversion H.
Qed.

Lemma refresh_buttons_only_acknowledge_witness :
  run (handle_button_press (press "refresh_user_42")) accept_all =
    ([Call answer None], Returned tt).
Proof.
  apply (refresh_buttons_only_acknowledge (PlainMessage forward_of_user42)
           accept_all (user_info_text user42) (Some "HTML")
           [ [Button "Refresh" "refresh_user_42"]; [Button "Close" "close"] ]
           None [Button "Refresh" "refresh_user_42"]
           (Button "Refresh" "refresh_user_42") (press "refresh_user_42")
           (CallbackQuery.mk (Some "refresh_user_42") alice) accept_all).
  - left. reflexivity.
  - left. reflexivity.
  - left. reflexivity.
  - reflexivity.
  - reflexivity.
  - reflexivity.
Defined.

(** ** Every event, continued *)

(** X11: commands and plain messages never touch a message that is
    already in the chat: whatever the transport answers, what the chat
    shows of any earlier message is the same after the event; only a button
    press can edit or delete. *)
Theorem commands_and_messages_leave_target
  (name : string) (update : Update.t) (t : Transport)
  (target : option Shown) :
  target_after (fst (run (dispatch (Command name update)) t)) target = target
  /\ target_after (fst (run (dispatch (PlainMessage update)) t)) target =
     target.
Proof. split; split_cases; destruct target; reflexivity. Qed.

(** X12: one event costs at most two calls on the transport and at most
    one line in the error log, whatever the transport answers. *)
Theorem at_most_two_calls_and_one_log (ev : InboundEvent) (t : Transport) :
  issued (fst (run (dispatch ev) t)) <= 2
  /\ length (logged (fst (run (dispatch ev) t))) <= 1.
Proof. destruct ev; split_cases; split; lia. Qed.

(** X13: [handle_message] only ever sends one of its three texts: the
    invitation, the generic error text, or the user-info block of the
    forwarding user.  The text of a caught exception goes to the log and
    never to the user. *)
Theorem handle_message_replies_are_canned
  (update : Update.t) (t : Transport) (body : string) (pm : option string)
  (kb : option InlineKeyboardMarkup) (r : option string) :
  In (Call (reply_text body pm kb) r) (fst (run (handle_message update) t)) ->
  body = prompt_text
  \/ body = error_text
  \/ exists msg user,
      Update.message update = Some msg
      /\ Message.forward_from msg = Some user
      /\ body = user_info_text user.
Proof.
  revert body pm kb r. split_cases; intros body pm kb r Hin; in_cases;
    eauto 8.
Qed.

Lemma handle_message_replies_are_canned_witness :
  error_text = prompt_text
  \/ error_text = error_text
  \/ exists msg user,
      Update.message forward_of_chat = Some msg
      /\ Message.forward_from msg = Some user
      /\ error_text = user_info_text user.
Proof.
  apply (handle_message_replies_are_canned forward_of_chat accept_all
           error_text None None None).
  right. left. reflexivity.
Defined.

(** ** Payloads and ids *)

Lemma to_int_not_nil (z : Z) :
  Z.to_int z <> Decimal.Pos Decimal.Nil /\ Z.to_int z <> Decimal.Neg Decimal.Nil.
Proof.
  destruct z as [|p|p]; cbn; split; try discriminate;
    intros H; injection H as H;
    exact (DecimalPos.Unsigned.to_uint_nonnil p H).
Qed.

Lemma int_of_str_str (z : Z) : int_of_str (str z) = Some z.
Proof.
  unfold int_of_str, str.
  destruct (to_int_not_nil z) as [Hp Hn].
  rewrite (NilZero.isi _ Hp Hn). cbn [option_map].
  now rewrite DecimalZ.of_to.
Qed.

Lemma append_cancel_l (a x y : string) : a ++ x = a ++ y -> x = y.
Proof.
  induction a as [|c a IH]; intros H; [exact H|].
  change (String c (a ++ x) = String c (a ++ y)) in H.
  injection H as H. exact (IH H).
Qed.

(** X14: the payload of the "Refresh" button under a user-info block
    determines the user: two forwarding users whose buttons carry the same
    payload have the same id, because the decimal text of an id reads back
    as that id. *)
Theorem refresh_payload_identifies_user (a b : User.t) :
  "refresh_user_" ++ str (User.id a) = "refresh_user_" ++ str (User.id b) ->
  User.id a = User.id b
  /\ int_of_str (str (User.id a)) = Some (User.id b).
Proof.
  intros H. apply append_cancel_l in H.
  assert (E : Some (User.id a) = Some (User.id b)).
  { rewrite <- (int_of_str_str (User.id a)), <- (int_of_str_str (User.id b)).
    now rewrite H. }
  injection E as E. split; [exact E|]. rewrite <- E. apply int_of_str_str.
Qed.

Lemma refresh_payload_identifies_user_witness :
  User.id user42 = User.id (User.mk 42 (Some "bob") true None)
  /\ int_of_str (str (User.id user42)) =
     Some (User.id (User.mk 42 (Some "bob") true None)).
Proof.
  exact (refresh_payload_identifies_user user42
           (User.mk 42 (Some "bob") true None) eq_refl).
Defined.

(** X15: the edit that answers a press of "Show My ID" shows the id of
    the user who pressed, between code tags, and "@" followed by that
    user's handle or N/A. *)
Theorem button_myid_text_shows (user : User.t) :
  contains ("<code>" ++ str (User.id user) ++ "</code>")
    (button_myid_text user) = true
  /\ contains ("@" ++ or_NA (User.username user)) (button_myid_text user) =
     true.
Proof.
  unfold button_myid_text.
  set (z := str (User.id user)).
  set (h := or_NA (User.username user)).
  split.
  - set (rest := nl ++ "👤 <b>Username</b>: @" ++ h).
    change (contains ("<code>" ++ z ++ "</code>")
              ("🆔 <b>Your ID</b>: " ++ "<code>" ++ z ++ "</code>" ++ rest) =
            true).
    apply contains_app_r.
    transitivity (contains ("<code>" ++ z ++ "</code>")
                    (("<code>" ++ z ++ "</code>") ++ rest));
      [now rewrite !append_assoc | apply contains_here].
  - apply (contains_app_r _ "🆔 <b>Your ID</b>: <code>"),
      (contains_app_r _ z), (contains_app_r _ "</code>"),
      (contains_app_r _ nl).
    change (contains ("@" ++ h) ("👤 <b>Username</b>: " ++ ("@" ++ h)) = true).
    apply contains_app_r, contains_refl.
Qed.

(** ** Startup and registration *)

(** X16: the script starts polling exactly when TELEGRAM_BOT_TOKEN is set
    to a non-empty string, and then builds the bot with that very token
    after one INFO line; a missing or an empty token costs one ERROR line
    and exit code 1, and no bot is built. *)
Theorem startup_needs_token (getenv : string -> option string) :
  (truthy (getenv "TELEGRAM_BOT_TOKEN") = false
   /\ main getenv =
      ([ERROR "Missing TELEGRAM_BOT_TOKEN in environment variables"], exit 1))
  \/ (exists token,
       getenv "TELEGRAM_BOT_TOKEN" = Some token
       /\ token <> EmptyString
       /\ main getenv = ([INFO "Starting bot..."], run_polling (init token))
       /\ UserInfoBot.token (init token) = token).
Proof.
  unfold main. destruct (getenv "TELEGRAM_BOT_TOKEN") as [[|a r]|].
  - left. split; reflexivity.
  - right. exists (String a r). repeat split. discriminate.
  - left. split; reflexivity.
Qed.

Section Routing.

Variable ev : InboundEvent.




End Routing.


